(** * A shallow embedding of [modules/output_handler.py] (nc-userimporter).

    The module glues three library-backed steps together: QR encoding,
    scraping the site's branding over HTTP, and laying out the onboarding
    PDF.  The libraries themselves (requests, BeautifulSoup, qrcode,
    reportlab) are kept abstract: the HTTP client, the HTML parser and
    the QR encoder are oracles that may raise, the file system is explicit
    state, and the PDF is the list of flowables ("story") handed to
    [doc.build]; what reportlab accepts (paragraph markup, image files,
    the final build) is an oracle too. *)

From Stdlib Require Import String Ascii List Bool ZArith Lia.
Import ListNotations.
Open Scope string_scope.

(** ** Python exceptions and results *)

Inductive exn :=
| KeyError (key : string)
| RequestException        (* requests: connection refused, timeout, DNS *)
| OSError (path : string) (* open(path, "wb") / img.save(path) / Image(path) *)
| ParserError             (* BeautifulSoup *)
| EncoderError            (* qrcode: DataOverflowError and the like *)
| ValueError (text : string) (* reportlab Paragraph: malformed markup *)
| LayoutError.            (* reportlab: doc.build failures *)

Inductive res (A : Type) :=
| Ok (a : A)
| Err (e : exn).
Arguments Ok {A} a.
Arguments Err {A} e.

Definition res_bind {A B} (r : res A) (k : A -> res B) : res B :=
  match r with Ok a => k a | Err e => Err e end.

Declare Scope res_scope.
Notation "x <- c ;; k" := (res_bind c (fun x => k))
  (at level 61, c at next level, right associativity) : res_scope.
Delimit Scope res_scope with res.

(** ** The world touched by the module: files written and HTTP requests made *)

Record World := mkWorld {
  w_files : list (string * string);   (* path |-> content, newest first *)
  w_requests : list string            (* URLs requested, oldest first *)
}.

(** Stateful code: a state-and-exception monad.  As in Python, the side
    effects performed before an exception are kept. *)
Definition IO (A : Type) := World -> res A * World.

Definition io_ret {A} (a : A) : IO A := fun w => (Ok a, w).
Definition io_raise {A} (e : exn) : IO A := fun w => (Err e, w).
Definition io_bind {A B} (m : IO A) (k : A -> IO B) : IO B :=
  fun w => match m w with
           | (Ok a, w') => k a w'
           | (Err e, w') => (Err e, w')
           end.
Definition io_lift {A} (r : res A) : IO A := fun w => (r, w).

(** [try: body except Exception: handler] *)
Definition io_try {A} (body : IO A) (handler : exn -> IO A) : IO A :=
  fun w => match body w with
           | (Ok a, w') => (Ok a, w')
           | (Err e, w') => handler e w'
           end.

Declare Scope io_scope.
Notation "x <- c ;; k" := (io_bind c (fun x => k))
  (at level 61, c at next level, right associativity) : io_scope.
Notation "c ;;; k" := (io_bind c (fun _ => k))
  (at level 61, right associativity) : io_scope.
Delimit Scope io_scope with io.

Definition file_at (w : World) (p : string) : option string :=
  match find (fun e => String.eqb (fst e) p) (w_files w) with
  | Some (_, c) => Some c
  | None => None
  end.

(** ** String helpers: Python's str methods and [os.path.join] *)

Definition is_empty (s : string) : bool :=
  match s with EmptyString => true | _ => false end.

(** Python strings are modelled by their UTF-8 encoding. *)
Definition byte (n : nat) : ascii := ascii_of_nat n.

(** The code points for which [str.isspace] holds, UTF-8 encoded:
    U+0009-U+000D, U+001C-U+0020, U+0085, U+00A0, U+1680, U+2000-U+200A,
    U+2028, U+2029, U+202F, U+205F and U+3000. *)
Definition py_whitespace : list (list ascii) :=
  map (fun n => [byte n]) (seq 9 5 ++ seq 28 5) ++
  [[byte 194; byte 133]; [byte 194; byte 160]; [byte 225; byte 154; byte 128]] ++
  map (fun n => [byte 226; byte 128; byte n]) (seq 128 11) ++
  [[byte 226; byte 128; byte 168]; [byte 226; byte 128; byte 169];
   [byte 226; byte 128; byte 175]; [byte 226; byte 129; byte 159];
   [byte 227; byte 128; byte 128]].

Fixpoint list_prefix (p l : list ascii) : bool :=
  match p, l with
  | [], _ => true
  | c :: p', d :: l' => Ascii.eqb c d && list_prefix p' l'
  | _ :: _, [] => false
  end.

(** Removes one leading code point among [seqs], if there is one. *)
Definition strip_one (seqs : list (list ascii)) (l : list ascii) : option (list ascii) :=
  match find (fun s => list_prefix s l) seqs with
  | Some s => Some (skipn (length s) l)
  | None => None
  end.

Fixpoint lstrip_with (seqs : list (list ascii)) (fuel : nat) (l : list ascii)
  : list ascii :=
  match fuel with
  | O => l
  | S fuel' => match strip_one seqs l with
               | Some l' => lstrip_with seqs fuel' l'
               | None => l
               end
  end.

(** [s.strip()]: leading whitespace code points, then trailing ones
    (matched on the reversed bytes). *)
Definition py_strip (s : string) : string :=
  let l := lstrip_with py_whitespace (length (list_ascii_of_string s))
             (list_ascii_of_string s) in
  string_of_list_ascii
    (rev (lstrip_with (map (@rev ascii) py_whitespace) (length l) (rev l))).

Fixpoint drop_while (p : ascii -> bool) (l : list ascii) : list ascii :=
  match l with
  | [] => []
  | c :: l' => if p c then drop_while p l' else l
  end.

(** [s.rstrip("/")] *)
Definition rstrip_slash (s : string) : string :=
  string_of_list_ascii
    (rev (drop_while (fun c => Ascii.eqb c "/"%char) (rev (list_ascii_of_string s)))).

Definition ends_with_slash (s : string) : bool :=
  match rev (list_ascii_of_string s) with
  | c :: _ => Ascii.eqb c "/"%char
  | [] => false
  end.

(** [posixpath.join(a, b)] *)
Definition path_join (a b : string) : string :=
  if String.prefix "/" b then b
  else if is_empty a || ends_with_slash a then a ++ b
  else a ++ "/" ++ b.

(** ** The oracles: HTTP, HTML parsing, QR encoding, file system *)

Record QRParams := mkQRParams {
  qr_version : nat;
  qr_error_correction : string;
  qr_box_size : nat;
  qr_border : nat;
  qr_fill_color : string;
  qr_back_color : string
}.

Record Env := mkEnv {
  (** [requests.get(url, timeout=10)]: the body of the response *)
  http_get : string -> res string;
  (** whether [open(path, "wb")] succeeds *)
  can_open : string -> bool;
  (** parsed documents *)
  Soup : Type;
  (** [BeautifulSoup(text, "html.parser")] *)
  bs4_parse : string -> res Soup;
  (** [soup.select_one("body > footer > p > a")], then [.text] of the tag *)
  select_footer_link_text : Soup -> option string;
  (** [qr.add_data(data); qr.make_image(...)] *)
  qr_make_image : QRParams -> string -> res string
}.

Section Effects.
Variable env : Env.
Local Open Scope io_scope.

Definition requests_get (url : string) : IO string :=
  fun w => (http_get env url,
            mkWorld (w_files w) (w_requests w ++ [url])).

(** [with open(path, "wb") as f: f.write(content)] and [img.save(path)] *)
Definition write_file (path content : string) : IO unit :=
  fun w => if can_open env path
           then (Ok tt, mkWorld ((path, content) :: w_files w) (w_requests w))
           else (Err (OSError path), w).

End Effects.

(** ** [generate_qr_code] *)

Definition qr_params : QRParams :=
  mkQRParams 1 "ERROR_CORRECT_L" 10 4 "black" "white".

Definition generate_qr_code (env : Env) (data output_dir filename : string)
  : IO string :=
  (img <- io_lift (qr_make_image env qr_params data) ;;
   let img_path := path_join output_dir (filename ++ ".jpg") in
   write_file env img_path img ;;;
   io_ret img_path)%io.

(** ** [fetch_logo_and_site_name] *)

Definition normalize_url (config_ncUrl : string) : string :=
  if negb (String.prefix "http" config_ncUrl)
  then "https://" ++ config_ncUrl
  else config_ncUrl.

(** The body of the [try] block. *)
Definition fetch_body (env : Env) (url config_ncUrl tmp_dir : string)
  : IO (option string * option string * string) :=
  (response <- requests_get env url ;;
   soup <- io_lift (bs4_parse env response) ;;
   let logo_url := rstrip_slash url ++ "/" ++ "apps/theming/image/logoheader" in
   let logo_path0 := path_join tmp_dir "site_logo.jpg" in
   logo_path <- (if negb (is_empty logo_url)
                 then img_resp <- requests_get env logo_url ;;
                      write_file env logo_path0 img_resp ;;;
                      io_ret (Some logo_path0)
                 else io_ret None) ;;
   let bg_url := rstrip_slash url ++ "/" ++ "apps/theming/image/background" in
   let bg_path0 := path_join tmp_dir "site_bg.jpg" in
   bg_path <- (if negb (is_empty bg_url)
               then bg_resp <- requests_get env bg_url ;;
                    write_file env bg_path0 bg_resp ;;;
                    io_ret (Some bg_path0)
               else io_ret None) ;;
   let site_name := match select_footer_link_text env soup with
                    | Some text => py_strip text
                    | None => config_ncUrl
                    end in
   io_ret (logo_path, bg_path, site_name))%io.

Definition fetch_logo_and_site_name (env : Env) (config_ncUrl tmp_dir : string)
  : IO (option string * option string * string) :=
  let url := normalize_url config_ncUrl in
  io_try (fetch_body env url config_ncUrl tmp_dir)
         (fun _ => io_ret (None, None, config_ncUrl)).

(** ** reportlab flowables *)

Inductive cell :=
| CellText (s : string)
(** [ClickableImage(image_path, url, width, height)] *)
| ClickableImage (image_path url : string) (width height : Z).

Inductive flowable :=
| Image (path : string) (width height : Z)
| Spacer (width height : Z)
| Paragraph (text style : string)
| Table (rows : list (list cell)) (col_widths : list Z)
        (row_heights : option (list Z)) (h_align : option string)
        (style : list string)
| PageBreak.

(** A Python dict with string keys and string values; lookups take the
    first binding. *)
Definition dict := list (string * string).

Fixpoint dict_get (d : dict) (k : string) : option string :=
  match d with
  | [] => None
  | (k', v) :: d' => if String.eqb k' k then Some v else dict_get d' k
  end.

(** [d[k]] *)
Definition getitem (d : dict) (k : string) : res string :=
  match dict_get d k with Some v => Ok v | None => Err (KeyError k) end.

(** [d.get(k, default)] *)
Definition dict_get_default (d : dict) (k default : string) : string :=
  match dict_get d k with Some v => v | None => default end.

(** A path argument that may be [None]: [p and os.path.exists(p)]. *)
Definition present (exists_ : string -> bool) (p : option string) : bool :=
  match p with
  | Some s => negb (is_empty s) && exists_ s
  | None => false
  end.

(** [f"{x}"] for a value that may be [None]. *)
Definition fmt_opt (x : option string) : string :=
  match x with Some s => s | None => "None" end.

Definition font14 (s : string) : string := "<font size=14>" ++ s ++ "</font>".

Definition missing (k : string) : string := "Missing translation string for: " ++ k.

(** The module-level default logo: [im = Image(nclogo, 150, 106)], built
    when the module is imported. *)
Definition nclogo : string := "assets/Nextcloud_Logo.jpg".
Definition im : flowable := Image nclogo 150 106.

Definition box_style : list string :=
  [ "BACKGROUND (0, 0) (-1, -1) whitesmoke";
    "BOX (0, 0) (-1, -1) 1 black";
    "ALIGN (0, 0) (-1, -1) CENTER";
    "VALIGN (0, 0) (-1, -1) MIDDLE";
    "FONTSIZE (0, 0) (-1, -1) 14";
    "FONTNAME (0, 0) (-1, -1) Courier";
    "TOPPADDING (0, 0) (-1, -1) 0";
    "BOTTOMPADDING (0, 0) (-1, -1) 7" ].

(** [Table([[text]], colWidths=[250], rowHeights=[24])] with the box style;
    a plain string cell is drawn as it is, without markup parsing. *)
Definition boxed_table (text : string) : flowable :=
  Table [[CellText text]] [250%Z] (Some [24%Z]) None box_style.

(** [user_data]: a dict of string fields, which in multi-user mode also
    carries the list of user records under the key "users". *)
Record UserData := mkUserData {
  ud_fields : dict;
  ud_users : option (list dict)
}.

(** What [doc.build] receives: the output path, the story, the page
    background drawn by [add_background] and the font of the styles. *)
Record Document := mkDocument {
  doc_path : string;
  doc_story : list flowable;
  doc_background : option string;
  doc_font : string
}.

(** The file system, the location of the module, and what reportlab
    accepts. *)
Record PdfEnv := mkPdfEnv {
  (** [os.path.exists] *)
  path_exists : string -> bool;
  (** [os.path.dirname(__file__)] *)
  module_dir : string;
  (** whether [pdfmetrics.registerFont(TTFont(...))] succeeds *)
  register_font_ok : string -> bool;
  (** whether [Paragraph(text, style)] parses the markup of [text]; it
      raises [ValueError] otherwise *)
  paragraph_markup_ok : string -> bool;
  (** whether [Image(path, w, h)] can read the image file *)
  image_readable : string -> bool;
  (** whether [doc.build] renders the document *)
  build_ok : Document -> bool
}.

Section Layout.
Variable penv : PdfEnv.
Local Open Scope res_scope.

(** [Paragraph(text, style)] *)
Definition new_Paragraph (text style : string) : res flowable :=
  if paragraph_markup_ok penv text then Ok (Paragraph text style) else Err (ValueError text).

(** [Image(path, width, height)] *)
Definition new_Image (path : string) (width height : Z) : res flowable :=
  if image_readable penv path then Ok (Image path width height) else Err (OSError path).

Definition google_play_url : string :=
  "https://play.google.com/store/apps/details?id=com.nextcloud.talk2".
Definition app_store_url : string :=
  "https://itunes.apple.com/us/app/nextcloud-talk/id1296825574".

Definition add_app_store_buttons (story : list flowable) (lang : dict)
  : res (list flowable) :=
  let download_text := dict_get_default lang "output_handler_download_app"
        "Скачайте приложение Nextcloud Talk на своё мобильное устройство:" in
  p <- new_Paragraph (font14 download_text) "Normal" ;;
  let story := (story ++ [p])%list in
  let story := (story ++ [Spacer 1 14])%list in
  let google_play_img := path_join (module_dir penv) "../assets/google_play.jpg" in
  let app_store_img := path_join (module_dir penv) "../assets/app_store.jpg" in
  let btn_width := 140%Z in
  let btn_height := 45%Z in
  let btn_row := (
    (if path_exists penv google_play_img
     then [ClickableImage google_play_img google_play_url btn_width btn_height]
     else []) ++ (if path_exists penv app_store_img
     then [ClickableImage app_store_img app_store_url btn_width btn_height]
     else []))%list in
  if Nat.ltb 0 (length btn_row)
  then let btn_table := Table [btn_row] (repeat (btn_width + 10)%Z (length btn_row))
                             None (Some "CENTER") [] in
       Ok (story ++ [btn_table; Spacer 1 24])%list
  else Ok story.

Definition add_greeting_and_password (story : list flowable) (user_data lang : dict)
  (site_name : option string) (config_ncUrl : string) : res (list flowable) :=
  let dn := py_strip (dict_get_default user_data "displayname" "") in
  displayname <- (if negb (is_empty dn) then Ok dn
                  else getitem user_data "username") ;;
  let ptext := font14 (dict_get_default lang "output_handler_greeting"
                         (missing "output_handler_greeting")
                       ++ " " ++ displayname ++ ",") in
  p <- new_Paragraph ptext "Justify" ;;
  let story := (story ++ [p; Spacer 1 12])%list in
  let ptext := font14 (dict_get_default lang "output_handler_account_created"
                         (missing "output_handler_account_created")
                       ++ " " ++ fmt_opt site_name) in
  p <- new_Paragraph ptext "Justify" ;;
  let story := (story ++ [p; Spacer 1 12])%list in
  let ptext := font14 (dict_get_default lang "output_handler_login_instructions"
                         (missing "output_handler_login_instructions")) in
  p <- new_Paragraph ptext "Normal" ;;
  let story := (story ++ [p; Spacer 1 24])%list in
  let ptext := font14 (dict_get_default lang "output_handler_nc_url"
                         (missing "output_handler_nc_url")
                       ++ ": " ++ config_ncUrl) in
  p <- new_Paragraph ptext "Normal" ;;
  let story := (story ++ [p; Spacer 1 24])%list in
  username <- getitem user_data "username" ;;
  let uname_table := boxed_table username in
  let ptext := font14 (dict_get_default lang "output_handler_username" "Username" ++ ":") in
  p <- new_Paragraph ptext "Normal" ;;
  let story := (story ++ [p; Spacer 1 10; uname_table; Spacer 1 20])%list in
  password <- getitem user_data "password" ;;
  let pwd_table := boxed_table password in
  let ptext := font14 (dict_get_default lang "output_handler_password" "Password" ++ ":") in
  p <- new_Paragraph ptext "Normal" ;;
  let story := (story ++ [p; Spacer 1 10; pwd_table; Spacer 1 20])%list in
  Ok story.

Definition build_single_user_section (story : list flowable) (user_data : dict)
  (qr_code_path : option string) (config_ncUrl : string) (lang : dict)
  (im_site : flowable) (site_name : option string) : res (list flowable) :=
  let story := (story ++ [im_site; Spacer 1 8])%list in
  story <- add_greeting_and_password story user_data lang site_name config_ncUrl ;;
  story <- match qr_code_path with
           | Some q =>
               if present (path_exists penv) qr_code_path
               then p <- new_Paragraph (font14 (dict_get_default lang
                           "output_handler_qr_code_alternative"
                           (missing "output_handler_qr_code_alternative"))) "Normal" ;;
                    img <- new_Image q 150 150 ;;
                    Ok (story ++ [p; Spacer 1 24; img])%list
               else Ok story
           | None => Ok story
           end ;;
  let story := (story ++ [Spacer 1 24])%list in
  add_app_store_buttons story lang.

(** The loop [for user in user_data["users"]: ...; story.append(PageBreak())]. *)
Fixpoint build_users (story : list flowable) (users : list dict)
  (config_ncUrl : string) (lang : dict) (im_site : flowable)
  (site_name : option string) : res (list flowable) :=
  match users with
  | [] => Ok story
  | user :: users' =>
      story <- build_single_user_section story user (dict_get user "qr_code_path")
                 config_ncUrl lang im_site site_name ;;
      build_users (story ++ [PageBreak])%list users' config_ncUrl lang im_site site_name
  end.

Definition generate_pdf (user_data : UserData) (qr_code_path : option string)
  (output_filepath config_ncUrl : string) (lang : dict) (multi_user : bool)
  (logo_path bg_path site_name : option string) : res Document :=
  let font_path := path_join (module_dir penv) "../assets/IBMPlexSans-Regular.ttf" in
  let custom_font :=
    if path_exists penv font_path && register_font_ok penv font_path
    then "IBMPlexSans" else "Helvetica" in
  im_site <- match logo_path with
             | Some l => if present (path_exists penv) logo_path
                         then new_Image l 150 150 else Ok im
             | None => Ok im
             end ;;
  let bg_image := if present (path_exists penv) bg_path then bg_path else None in
  story <- (if multi_user
            then users <- match ud_users user_data with
                          | Some us => Ok us
                          | None => Err (KeyError "users")
                          end ;;
                 build_users [] users config_ncUrl lang im_site site_name
            else build_single_user_section [] (ud_fields user_data) qr_code_path
                   config_ncUrl lang im_site site_name) ;;
  let doc := mkDocument output_filepath story bg_image custom_font in
  if build_ok penv doc then Ok doc else Err LayoutError.

End Layout.

(** ** Auxiliary definitions for the statements *)

Definition res_map {A B} (f : A -> B) (r : res A) : res B :=
  match r with Ok a => Ok (f a) | Err e => Err e end.

(** A user record carries both fields read with [d[...]]. *)
Definition has_credentials (u : dict) : bool :=
  match dict_get u "username", dict_get u "password" with
  | Some _, Some _ => true
  | _, _ => false
  end.

(** The site logo chosen by [generate_pdf] (its "Load logo image" block). *)
Definition im_site_of (penv : PdfEnv) (logo_path : option string) : res flowable :=
  match logo_path with
  | Some l => if present (path_exists penv) logo_path then new_Image penv l 150 150 else Ok im
  | None => Ok im
  end.

(** The page block of one user, built on an empty story. *)
Definition user_block (penv : PdfEnv) (u : dict) (qr : option string)
  (config_ncUrl : string) (lang : dict) (im_site : flowable)
  (site_name : option string) : res (list flowable) :=
  build_single_user_section penv [] u qr config_ncUrl lang im_site site_name.

Definition count_page_breaks (story : list flowable) : nat :=
  length (filter (fun f => match f with PageBreak => true | _ => false end) story).

(** ** Concrete environments *)

(** Nothing exists on disk and fonts cannot be registered; reportlab
    accepts every paragraph, image and document. *)
Definition bare_penv : PdfEnv :=
  mkPdfEnv (fun _ => false) "modules" (fun _ => false) (fun _ => true) (fun _ => true)
    (fun _ => true).

(** Every file is on disk. *)
Definition full_penv : PdfEnv :=
  mkPdfEnv (fun _ => true) "modules" (fun _ => true) (fun _ => true) (fun _ => true)
    (fun _ => true).

(** The number of positions of [s] at which [pat] starts. *)
Fixpoint occurrences (pat s : string) : nat :=
  match s with
  | EmptyString => 0
  | String _ s' => (if String.prefix pat s then 1 else 0) + occurrences pat s'
  end.

(** A paragraph parser that accepts markup whose [<font] tags are closed
    as often as they are opened. *)
Definition markup_penv : PdfEnv :=
  mkPdfEnv (fun _ => false) "modules" (fun _ => false)
    (fun t => Nat.eqb (occurrences "<font" t) (occurrences "</font>" t))
    (fun _ => true) (fun _ => true).

(** One whitespace code point recognised by [str.strip]. *)
Definition is_py_whitespace (s : list ascii) : bool :=
  existsb (fun w => if list_eq_dec ascii_dec s w then true else false) py_whitespace.

Definition alice : dict :=
  [("username", "alice"); ("password", " s3cr3t! "); ("displayname", "Alice")].
Definition bob : dict :=
  [("username", "bob"); ("password", "hunter2"); ("qr_code_path", "tmp/bob.jpg")].

(** A reachable site whose footer names it " My Cloud ". *)
Definition site_env (writable : bool) : Env :=
  {| http_get := fun u => Ok ("<html>" ++ u ++ "</html>");
     can_open := fun _ => writable;
     Soup := unit;
     bs4_parse := fun _ => Ok tt;
     select_footer_link_text := fun _ => Some " My Cloud ";
     qr_make_image := fun _ d => Ok ("QR:" ++ d) |}.

Definition empty_world : World := mkWorld [] [].

Example strip_example : py_strip (String (ascii_of_nat 10) "  My Cloud ") = "My Cloud".
Proof. reflexivity. Qed.

(** U+00A0 around the name and U+3000 inside it. *)
Example strip_unicode_example :
  py_strip (String (byte 194) (String (byte 160) ("My" ++ String (byte 227)
     (String (byte 128) (String (byte 128) ("Cloud" ++ String (byte 194)
     (String (byte 160) "")))))))
  = "My" ++ String (byte 227) (String (byte 128) (String (byte 128) "Cloud")).
Proof. reflexivity. Qed.

Example join_example :
  path_join "tmp" "x.jpg" = "tmp/x.jpg" /\ path_join "tmp/" "x.jpg" = "tmp/x.jpg"
  /\ path_join "tmp" "/abs.jpg" = "/abs.jpg" /\ path_join "" "x.jpg" = "x.jpg".
Proof. repeat split; reflexivity. Qed.

Example fetch_example :
  fst (fetch_logo_and_site_name (site_env true) "cloud.example.org/" "tmp" empty_world)
  = Ok (Some "tmp/site_logo.jpg", Some "tmp/site_bg.jpg", "My Cloud")
  /\ w_requests (snd (fetch_logo_and_site_name (site_env true) "cloud.example.org/" "tmp" empty_world))
     = ["https://cloud.example.org/";
        "https://cloud.example.org/apps/theming/image/logoheader";
        "https://cloud.example.org/apps/theming/image/background"].
Proof. split; reflexivity. Qed.

(** ** The story builders only append *)

(** Case analysis on the reportlab oracles, the dict lookups and the
    branches of the story builders. *)
Ltac layout_cases :=
  repeat (simpl in *;
    match goal with
    | |- context [paragraph_markup_ok ?p ?t] => destruct (paragraph_markup_ok p t)
    | |- context [image_readable ?p ?t] => destruct (image_readable p t)
    | |- context [path_exists ?p ?t] => destruct (path_exists p t)
    | |- context [dict_get ?d ?k] => destruct (dict_get d k)
    | |- context [is_empty ?s] => destruct (is_empty s)
    end); simpl in *.

(** The same, when reportlab accepts every paragraph and image. *)
Ltac layout_cases_accepting Hp Hi :=
  repeat (simpl in *;
    match goal with
    | |- context [paragraph_markup_ok ?p ?t] => rewrite (Hp t)
    | |- context [image_readable ?p ?t] => rewrite (Hi t)
    | |- context [path_exists ?p ?t] => destruct (path_exists p t)
    | |- context [dict_get ?d ?k] => destruct (dict_get d k)
    | |- context [is_empty ?s] => destruct (is_empty s)
    end); simpl in *.

Ltac unfold_layout :=
  unfold build_single_user_section, add_app_store_buttons, add_greeting_and_password,
    new_Paragraph, new_Image, getitem, res_bind, present.

Lemma add_app_store_buttons_app penv story lang :
  add_app_store_buttons penv story lang
  = res_map (fun s => story ++ s)%list (add_app_store_buttons penv [] lang).
Proof. unfold_layout. layout_cases; now rewrite <- ?app_assoc. Qed.

Lemma add_greeting_and_password_app penv story u lang sn url :
  add_greeting_and_password penv story u lang sn url
  = res_map (fun s => story ++ s)%list (add_greeting_and_password penv [] u lang sn url).
Proof. unfold_layout. layout_cases; now rewrite <- ?app_assoc. Qed.

Lemma build_single_user_section_app penv story u qr url lang ims sn :
  build_single_user_section penv story u qr url lang ims sn
  = res_map (fun s => story ++ s)%list (user_block penv u qr url lang ims sn).
Proof.
  unfold user_block, build_single_user_section, res_bind.
  rewrite (add_greeting_and_password_app penv (story ++ _)%list),
    (add_greeting_and_password_app penv ([] ++ _)%list).
  assert (HA : forall x, add_app_store_buttons penv x lang
                        = res_map (fun s => x ++ s)%list (add_app_store_buttons penv [] lang))
    by (intros; apply add_app_store_buttons_app).
  destruct (add_app_store_buttons penv [] lang) as [a|e]; simpl in HA.
  all: destruct (add_greeting_and_password penv [] u lang sn url) as [g|e']; simpl;
    [|reflexivity].
  all: destruct qr as [q|]; [destruct (present _ _)|]; unfold new_Paragraph, new_Image;
    [destruct (paragraph_markup_ok _ _); [destruct (image_readable _ _)|]| |]; simpl;
    rewrite ?HA; simpl; now rewrite <- ?app_assoc.
Qed.

(** A greeting block is built only for a record with both credentials. *)
Lemma add_greeting_and_password_ok_credentials penv story u lang sn url s :
  add_greeting_and_password penv story u lang sn url = Ok s -> has_credentials u = true.
Proof.
  unfold has_credentials. unfold_layout.
  destruct (dict_get u "username"), (dict_get u "password"); auto;
    layout_cases; discriminate.
Qed.

Lemma user_block_ok_credentials penv u qr url lang ims sn b :
  user_block penv u qr url lang ims sn = Ok b -> has_credentials u = true.
Proof.
  unfold user_block, build_single_user_section, res_bind.
  destruct (add_greeting_and_password penv _ u lang sn url) eqn:E; [|discriminate].
  intros _. eapply add_greeting_and_password_ok_credentials; eauto.
Qed.

(** When reportlab accepts every paragraph, the only errors of the greeting
    block are the two credential lookups. *)
Lemma add_greeting_and_password_err_accepting penv story u lang sn url e
  (Hp : forall t, paragraph_markup_ok penv t = true)
  (Hi : forall p, image_readable penv p = true) :
  add_greeting_and_password penv story u lang sn url = Err e ->
  e = KeyError "username" \/ e = KeyError "password".
Proof. unfold_layout. layout_cases_accepting Hp Hi; intros H; inversion H; auto. Qed.

Lemma user_block_err_accepting penv u qr url lang ims sn e
  (Hp : forall t, paragraph_markup_ok penv t = true)
  (Hi : forall p, image_readable penv p = true) :
  user_block penv u qr url lang ims sn = Err e ->
  e = KeyError "username" \/ e = KeyError "password".
Proof.
  unfold user_block, build_single_user_section, res_bind.
  destruct (add_greeting_and_password penv _ u lang sn url) eqn:E.
  - destruct qr; unfold_layout; layout_cases_accepting Hp Hi; discriminate.
  - intros H. inversion H; subst. eapply add_greeting_and_password_err_accepting; eauto.
Qed.

(** The multi-user loop appends each user's block followed by a page break. *)
Lemma build_users_ok penv story users url lang ims sn s :
  build_users penv story users url lang ims sn = Ok s ->
  exists blocks,
    Forall2 (fun u b => user_block penv u (dict_get u "qr_code_path") url lang ims sn = Ok b)
            users blocks /\
    s = (story ++ concat (map (fun b => b ++ [PageBreak]) blocks))%list.
Proof.
  revert story. induction users as [|u us IH]; intros story H; simpl in *.
  - inversion H. exists []. split; [constructor|]. now rewrite app_nil_r.
  - rewrite build_single_user_section_app in H.
    destruct (user_block penv u _ url lang ims sn) as [b|e] eqn:Hb; simpl in H;
      [|discriminate].
    destruct (IH _ H) as [bs [Hbs Heq]].
    exists (b :: bs). split; [now constructor|].
    rewrite Heq. simpl. now rewrite <- !app_assoc.
Qed.

Lemma build_users_err_accepting penv story users url lang ims sn e
  (Hp : forall t, paragraph_markup_ok penv t = true)
  (Hi : forall p, image_readable penv p = true) :
  build_users penv story users url lang ims sn = Err e ->
  e = KeyError "username" \/ e = KeyError "password".
Proof.
  revert story. induction users as [|u us IH]; intros story H; simpl in *.
  - discriminate.
  - rewrite build_single_user_section_app in H.
    destruct (user_block penv u _ url lang ims sn) eqn:E; simpl in H.
    + eapply IH; eauto.
    + inversion H; subst. eapply user_block_err_accepting; eauto.
Qed.

Lemma build_users_missing penv story users url lang ims sn :
  existsb (fun u => negb (has_credentials u)) users = true ->
  exists e, build_users penv story users url lang ims sn = Err e.
Proof.
  revert story. induction users as [|u us IH]; intros story H; simpl in *.
  - discriminate.
  - rewrite build_single_user_section_app.
    destruct (user_block penv u _ url lang ims sn) as [b|e] eqn:Hb; simpl; eauto.
    apply user_block_ok_credentials in Hb. rewrite Hb in H. simpl in H. eauto.
Qed.

(** ** Lemmas on the branding fetch *)

Lemma is_empty_app_slash a b : is_empty (a ++ "/" ++ b) = false.
Proof. now destruct a. Qed.

Lemma file_at_write w p c ws :
  file_at (mkWorld ((p, c) :: w_files w) ws) p = Some c.
Proof. unfold file_at. simpl. now rewrite String.eqb_refl. Qed.

(** Case analysis on every oracle call of the fetch sequence. *)
Ltac fetch_cases :=
  repeat (simpl in *;
    match goal with
    | |- context [http_get ?env ?u] => destruct (http_get env u)
    | |- context [bs4_parse ?env ?p] => destruct (bs4_parse env p)
    | |- context [can_open ?env ?p] => destruct (can_open env p)
    | |- context [select_footer_link_text ?env ?s] => destruct (select_footer_link_text env s)
    end).

Ltac unfold_fetch :=
  unfold fetch_logo_and_site_name, io_try, fetch_body, io_bind, io_lift, io_ret,
    requests_get, write_file;
  rewrite ?is_empty_app_slash; simpl.

(** ** Lemmas on the layout *)

(** The cells of the tables of a story. *)
Definition cells_of (story : list flowable) : list cell :=
  flat_map (fun f => match f with Table rows _ _ _ _ => concat rows | _ => [] end) story.

Definition is_table (f : flowable) : bool :=
  match f with Table _ _ _ _ _ => true | _ => false end.

Lemma cells_of_app a b : cells_of (a ++ b) = (cells_of a ++ cells_of b)%list.
Proof. unfold cells_of. apply flat_map_app. Qed.

(** [generate_pdf] loads the logo, builds the story, then hands the
    document to [doc.build]. *)
Lemma generate_pdf_unfold penv ud qr out url lang multi logo bg sn :
  generate_pdf penv ud qr out url lang multi logo bg sn
  = (ims <- im_site_of penv logo ;;
     story <- (if multi
               then match ud_users ud with
                    | Some us => build_users penv [] us url lang ims sn
                    | None => Err (KeyError "users")
                    end
               else build_single_user_section penv [] (ud_fields ud) qr url lang ims sn) ;;
     let font_path := path_join (module_dir penv) "../assets/IBMPlexSans-Regular.ttf" in
     let doc := mkDocument out story
                  (if present (path_exists penv) bg then bg else None)
                  (if path_exists penv font_path && register_font_ok penv font_path
                   then "IBMPlexSans" else "Helvetica") in
     if build_ok penv doc then Ok doc else Err LayoutError)%res.
Proof.
  unfold generate_pdf, im_site_of, res_bind.
  destruct multi; [destruct (ud_users ud)|]; reflexivity.
Qed.

(** The story of a built document. *)
Lemma generate_pdf_ok penv ud qr out url lang multi logo bg sn doc :
  generate_pdf penv ud qr out url lang multi logo bg sn = Ok doc ->
  exists ims, im_site_of penv logo = Ok ims /\
    (if multi
     then exists us, ud_users ud = Some us /\
                     build_users penv [] us url lang ims sn = Ok (doc_story doc)
     else build_single_user_section penv [] (ud_fields ud) qr url lang ims sn
          = Ok (doc_story doc)).
Proof.
  rewrite generate_pdf_unfold.
  destruct (im_site_of penv logo) as [ims|e]; simpl; [|discriminate].
  destruct multi; [destruct (ud_users ud) as [us|] eqn:Eu|]; simpl; try discriminate;
  [destruct (build_users penv [] us url lang ims sn) as [s|e] eqn:Es |
   destruct (build_single_user_section penv [] (ud_fields ud) qr url lang ims sn)
     as [s|e] eqn:Es];
  simpl; try discriminate;
  destruct (build_ok _ _); intros H; inversion H; subst; simpl; eauto.
Qed.

Lemma im_site_of_not_break penv logo ims :
  im_site_of penv logo = Ok ims -> ims <> PageBreak.
Proof.
  unfold im_site_of, new_Image, im.
  destruct logo; [destruct (present _ _); [destruct (image_readable _ _)|]|];
    intros H; inversion H; discriminate.
Qed.

Lemma res_map_ok {A B} (f : A -> B) r b :
  res_map f r = Ok b -> exists a, r = Ok a /\ f a = b.
Proof. destruct r; simpl; intros H; inversion H; eauto. Qed.

Lemma res_map_err {A B} (f : A -> B) r e :
  res_map f r = Err e -> r = Err e.
Proof. destruct r; simpl; intros H; inversion H; eauto. Qed.

Lemma count_page_breaks_app a b :
  count_page_breaks (a ++ b) = count_page_breaks a + count_page_breaks b.
Proof. unfold count_page_breaks. now rewrite filter_app, length_app. Qed.

Lemma add_greeting_and_password_no_break penv u lang sn url g :
  add_greeting_and_password penv [] u lang sn url = Ok g -> count_page_breaks g = 0.
Proof. unfold_layout. layout_cases; intros H; inversion H; reflexivity. Qed.

Lemma add_app_store_buttons_no_break penv lang a :
  add_app_store_buttons penv [] lang = Ok a -> count_page_breaks a = 0.
Proof. unfold_layout. layout_cases; intros H; inversion H; reflexivity. Qed.

Lemma user_block_no_break penv u qr url lang ims sn b :
  ims <> PageBreak ->
  user_block penv u qr url lang ims sn = Ok b -> count_page_breaks b = 0.
Proof.
  intros Hims. unfold user_block, build_single_user_section, res_bind.
  rewrite add_greeting_and_password_app.
  destruct (add_greeting_and_password penv [] u lang sn url) as [g|e] eqn:Eg; simpl;
    [|discriminate].
  apply add_greeting_and_password_no_break in Eg.
  assert (Hs : forall x, count_page_breaks x = 0 ->
            match add_app_store_buttons penv x lang with
            | Ok b => count_page_breaks b = 0 | Err _ => True end).
  { intros x Hx. rewrite add_app_store_buttons_app.
    destruct (add_app_store_buttons penv [] lang) as [a|e] eqn:Ea; simpl; [|exact I].
    apply add_app_store_buttons_no_break in Ea. now rewrite count_page_breaks_app, Hx. }
  assert (Hb : count_page_breaks [ims; Spacer 1 8] = 0) by (destruct ims; now try congruence).
  intros H.
  destruct qr as [q|]; [destruct (present _ _)|]; unfold new_Paragraph, new_Image in H;
    [destruct (paragraph_markup_ok _ _); [destruct (image_readable _ _)|]| |];
    simpl in H; try discriminate;
    match type of H with add_app_store_buttons penv ?x lang = Ok b =>
      specialize (Hs x); rewrite H in Hs; apply Hs end;
    clear Hs H; unfold count_page_breaks in *; rewrite ?filter_app, ?length_app in *;
    destruct ims; try congruence; simpl in *; rewrite ?filter_app, ?length_app; simpl; lia.
Qed.

(** ** Lemmas on strings *)

Lemma prefix_app p s t : String.prefix p s = true -> String.prefix p (s ++ t) = true.
Proof.
  revert s. induction p as [|a p IH]; intros [|c s] H; cbn [String.prefix append] in *;
    try discriminate; auto.
  - now destruct t.
  - destruct (ascii_dec _ _); auto.
Qed.

(** A string starting with [p ++ q] starts with [p]. *)
Lemma prefix_app_l p q s : String.prefix (p ++ q) s = true -> String.prefix p s = true.
Proof.
  revert s. induction p as [|a p IH]; intros s H; [now destruct s|].
  destruct s as [|c s]; cbn [String.prefix append] in *; [discriminate|].
  destruct (ascii_dec a c); [auto|discriminate].
Qed.

Lemma list_prefix_app p r : list_prefix p (p ++ r) = true.
Proof. induction p as [|c p IH]; simpl; [reflexivity|]. now rewrite Ascii.eqb_refl. Qed.

Lemma list_prefix_inv p l : list_prefix p l = true -> exists r, l = (p ++ r)%list.
Proof.
  revert l. induction p as [|c p IH]; intros [|d l] H; simpl in *; eauto; try discriminate.
  apply andb_prop in H as [Hc Hp]. apply Ascii.eqb_eq in Hc. subst.
  destruct (IH l Hp) as [r ->]. eauto.
Qed.

(** Two prefixes of one list are comparable. *)
Lemma list_prefix_comparable p q r :
  list_prefix p (q ++ r) = true -> list_prefix p q = true \/ list_prefix q p = true.
Proof.
  revert q. induction p as [|c p IH]; intros [|d q] H; simpl in *; auto.
  apply andb_prop in H as [Hc Hp]. apply Ascii.eqb_eq in Hc. subst.
  rewrite Ascii.eqb_refl. simpl. auto.
Qed.

(** No whitespace sequence of [str.strip] is a prefix of another. *)
Definition prefix_free (seqs : list (list ascii)) : bool :=
  forallb (fun s => forallb (fun s' =>
    implb (list_prefix s s') (if list_eq_dec ascii_dec s s' then true else false)) seqs) seqs.

Lemma py_whitespace_prefix_free : prefix_free py_whitespace = true.
Proof. vm_compute. reflexivity. Qed.

Lemma py_whitespace_nonempty : forallb (fun s => negb (Nat.eqb (length s) 0)) py_whitespace = true.
Proof. vm_compute. reflexivity. Qed.

Lemma is_py_whitespace_In s : is_py_whitespace s = true -> In s py_whitespace.
Proof.
  unfold is_py_whitespace. intros H. apply existsb_exists in H as [w [Hw Heq]].
  destruct (list_eq_dec ascii_dec s w); [now subst|discriminate].
Qed.

Lemma skipn_length_app (a r : list ascii) : skipn (length a) (a ++ r) = r.
Proof. induction a; simpl; auto. Qed.

Lemma lstrip_with_nil seqs fuel : lstrip_with seqs fuel [] = [].
Proof.
  induction fuel as [|f IH]; simpl; [reflexivity|]. unfold strip_one.
  destruct (find _ seqs); [|reflexivity]. now rewrite skipn_nil.
Qed.

Lemma prefix_free_eq seqs s s' :
  prefix_free seqs = true -> In s seqs -> In s' seqs -> list_prefix s s' = true -> s = s'.
Proof.
  unfold prefix_free. intros Hpf Hs Hs' Hp.
  rewrite forallb_forall in Hpf. specialize (Hpf s Hs).
  rewrite forallb_forall in Hpf. specialize (Hpf s' Hs').
  rewrite Hp in Hpf. simpl in Hpf. now destruct (list_eq_dec ascii_dec s s').
Qed.

(** Stripping a run of whitespace code points from the left leaves nothing. *)
Lemma lstrip_with_concat seqs segs fuel :
  prefix_free seqs = true ->
  Forall (fun s => In s seqs) segs ->
  length segs <= fuel ->
  lstrip_with seqs fuel (concat segs) = [].
Proof.
  intros Hpf. revert fuel. induction segs as [|a segs IH]; intros fuel Hsegs Hf.
  - apply lstrip_with_nil.
  - inversion Hsegs as [|? ? Ha Hrest]; subst.
    destruct fuel as [|f]; simpl in Hf; [lia|]. simpl. unfold strip_one.
    destruct (find (fun s => list_prefix s (a ++ concat segs)) seqs) as [s|] eqn:E.
    + apply find_some in E as [Hs Hp].
      destruct (list_prefix_comparable s a (concat segs) Hp) as [H|H].
      * rewrite (prefix_free_eq seqs s a Hpf Hs Ha H), skipn_length_app. apply IH; auto. lia.
      * rewrite <- (prefix_free_eq seqs a s Hpf Ha Hs H), skipn_length_app.
        apply IH; auto. lia.
    + apply (find_none _ _ E) in Ha. now rewrite list_prefix_app in Ha.
Qed.

Lemma length_concat_ge segs :
  Forall (fun s => In s py_whitespace) segs -> length segs <= length (concat segs).
Proof.
  induction 1 as [|a segs Ha _ IH]; simpl; [lia|]. rewrite length_app.
  pose proof py_whitespace_nonempty as Hn. rewrite forallb_forall in Hn.
  specialize (Hn a Ha). destruct a; simpl in *; [discriminate|lia].
Qed.

(** A string made only of whitespace code points strips to the empty
    string. *)
Lemma py_strip_blank t segs :
  list_ascii_of_string t = concat segs ->
  forallb is_py_whitespace segs = true ->
  py_strip t = "".
Proof.
  intros Ht Hw.
  assert (Hin : Forall (fun s => In s py_whitespace) segs).
  { apply Forall_forall. intros s Hs. rewrite forallb_forall in Hw.
    apply is_py_whitespace_In, Hw, Hs. }
  unfold py_strip. rewrite Ht.
  rewrite (lstrip_with_concat py_whitespace segs); [reflexivity| | |].
  - apply py_whitespace_prefix_free.
  - exact Hin.
  - now apply length_concat_ge.
Qed.
(** ** Claims *)

(** C1: for every host string, [fetch_logo_and_site_name] never raises;
    whenever the fetch/parse sequence raises, it returns
    [(None, None, config_ncUrl)] with the raw host string, in particular
    when the host is unreachable. *)
Theorem fetch_logo_and_site_name_never_raises env host tmp w :
  (exists r, fst (fetch_logo_and_site_name env host tmp w) = Ok r) /\
  (forall e w', fetch_body env (normalize_url host) host tmp w = (Err e, w') ->
     fetch_logo_and_site_name env host tmp w = (Ok (None, None, host), w')) /\
  (forall e, http_get env (normalize_url host) = Err e ->
     fst (fetch_logo_and_site_name env host tmp w) = Ok (None, None, host)).
Proof.
  split; [|split].
  - unfold fetch_logo_and_site_name, io_try.
    destruct (fetch_body env (normalize_url host) host tmp w) as [[r|e] w']; simpl; eauto.
  - intros e w' H. unfold fetch_logo_and_site_name, io_try. now rewrite H.
  - intros e H. unfold_fetch. now rewrite H.
Qed.

(** C5: [generate_qr_code] saves the image at
    [os.path.join(output_dir, filename + ".jpg")] and returns that path;
    it returns nothing else, and it only raises what the encoder or the
    save raise. *)
Theorem generate_qr_code_path env data dir fn w :
  (forall p w', generate_qr_code env data dir fn w = (Ok p, w') ->
     p = path_join dir (fn ++ ".jpg") /\
     exists img, qr_make_image env qr_params data = Ok img /\ file_at w' p = Some img) /\
  (forall img, qr_make_image env qr_params data = Ok img ->
     can_open env (path_join dir (fn ++ ".jpg")) = true ->
     fst (generate_qr_code env data dir fn w) = Ok (path_join dir (fn ++ ".jpg"))).
Proof.
  unfold generate_qr_code, io_bind, io_lift, io_ret, write_file.
  split.
  - intros p w' H.
    destruct (qr_make_image env qr_params data) as [img|e]; [|discriminate].
    destruct (can_open env _); inversion H; subst.
    split; [reflexivity|]. exists img. split; [reflexivity|]. apply file_at_write.
  - intros img Himg Hopen. now rewrite Himg, Hopen.
Qed.

(** C6 (as stated, refuted): the host ["ftp://files.example.org"] has a
    scheme, yet it is not left unchanged. *)
Lemma normalize_url_scheme_counterexample :
  ~ (forall s sch rest, sch <> "" -> s = sch ++ "://" ++ rest -> normalize_url s = s).
Proof.
  intros H.
  specialize (H "ftp://files.example.org" "ftp" "files.example.org").
  assert (E : normalize_url "ftp://files.example.org" = "ftp://files.example.org")
    by (apply H; [discriminate | reflexivity]).
  vm_compute in E. discriminate.
Qed.

(** C6 (amended): a host starting with ["http://"] or ["https://"] is left
    unchanged; a host that does not start with ["http"], such as one with
    another scheme, is prefixed with ["https://"]; and the first request
    made is to the resulting URL. *)
Theorem fetch_requests_normalized_url :
  (forall host, String.prefix "http://" host = true \/ String.prefix "https://" host = true ->
     normalize_url host = host) /\
  (forall host, String.prefix "http" host = false -> normalize_url host = "https://" ++ host) /\
  (forall env host tmp w, exists rest,
     w_requests (snd (fetch_logo_and_site_name env host tmp w))
     = (w_requests w ++ normalize_url host :: rest)%list).
Proof.
  split; [|split].
  - intros host H. unfold normalize_url.
    assert (Hh : String.prefix "http" host = true).
    { destruct H as [H|H]; [apply (prefix_app_l "http" "://")|apply (prefix_app_l "http" "s://")];
        exact H. }
    now rewrite Hh.
  - intros host H. unfold normalize_url. now rewrite H.
  - intros env host tmp w.
    unfold_fetch. fetch_cases; simpl; eexists; rewrite <- ?app_assoc; simpl; reflexivity.
Qed.

Lemma fetch_requests_normalized_url_witness :
  normalize_url "https://cloud.example.org" = "https://cloud.example.org" /\
  normalize_url "ftp://files.example.org" = "https://ftp://files.example.org".
Proof.
  split.
  - apply (proj1 fetch_requests_normalized_url). right. reflexivity.
  - apply (proj1 (proj2 fetch_requests_normalized_url)). reflexivity.
Defined.

(** C7 (as stated, refuted): the root page of ["cloud.example.org"] is
    fetched and its footer link reads [" My Cloud "], but the scratch
    directory cannot be written, so the logo write raises inside the [try]
    and the returned site name is the raw host, not ["My Cloud"]. *)
Lemma site_name_footer_counterexample :
  http_get (site_env false) (normalize_url "cloud.example.org")
    = Ok "<html>https://cloud.example.org</html>" /\
  select_footer_link_text (site_env false) tt = Some " My Cloud " /\
  fst (fetch_logo_and_site_name (site_env false) "cloud.example.org" "tmp" empty_world)
    = Ok (None, None, "cloud.example.org") /\
  "cloud.example.org" <> py_strip " My Cloud ".
Proof. vm_compute. repeat split; discriminate. Qed.

(** C7 (amended): when the whole fetch sequence succeeds (root page
    fetched and parsed, logo and background fetched and written), the site
    name is the footer link's text stripped of surrounding whitespace if
    the page has one and the raw host string otherwise; when a step of the
    sequence raises, the site name is the raw host string. *)
Theorem fetch_site_name_on_success env host tmp w page soup lg bgc
  (Hroot : http_get env (normalize_url host) = Ok page)
  (Hparse : bs4_parse env page = Ok soup)
  (Hlogo : http_get env (rstrip_slash (normalize_url host) ++ "/" ++
                         "apps/theming/image/logoheader") = Ok lg)
  (Hbg : http_get env (rstrip_slash (normalize_url host) ++ "/" ++
                       "apps/theming/image/background") = Ok bgc)
  (Hwl : can_open env (path_join tmp "site_logo.jpg") = true)
  (Hwb : can_open env (path_join tmp "site_bg.jpg") = true) :
  fst (fetch_logo_and_site_name env host tmp w)
  = Ok (Some (path_join tmp "site_logo.jpg"), Some (path_join tmp "site_bg.jpg"),
        match select_footer_link_text env soup with
        | Some text => py_strip text
        | None => host
        end) /\
  (forall e w', fetch_body env (normalize_url host) host tmp w = (Err e, w') ->
     exists l b, fst (fetch_logo_and_site_name env host tmp w) = Ok (l, b, host)).
Proof.
  split.
  - simpl in Hlogo, Hbg. unfold_fetch.
    rewrite Hroot; simpl. rewrite Hparse; simpl. rewrite Hlogo, Hwl; simpl.
    rewrite Hbg, Hwb. reflexivity.
  - intros e w' H. unfold fetch_logo_and_site_name, io_try. rewrite H.
    simpl. eauto.
Qed.

Lemma fetch_site_name_on_success_witness :
  http_get (site_env true) (normalize_url "cloud.example.org")
    = Ok "<html>https://cloud.example.org</html>" /\
  fst (fetch_logo_and_site_name (site_env true) "cloud.example.org" "tmp" empty_world)
    = Ok (Some "tmp/site_logo.jpg", Some "tmp/site_bg.jpg", "My Cloud").
Proof.
  split; [reflexivity|].
  refine (proj1 (fetch_site_name_on_success (site_env true) "cloud.example.org" "tmp"
            empty_world "<html>https://cloud.example.org</html>" tt
            "<html>https://cloud.example.org/apps/theming/image/logoheader</html>"
            "<html>https://cloud.example.org/apps/theming/image/background</html>"
            _ _ _ _ _ _)); reflexivity.
Defined.

(** C9: on every run of the [try] body that does not raise, the logo and
    background paths are the fixed paths under [tmp_dir]; the [else]
    branches returning [None] are unreachable because the theming URLs are
    never empty. *)
Theorem fetch_body_fixed_paths env url host tmp w l b n w'
  (H : fetch_body env url host tmp w = (Ok (l, b, n), w')) :
  l = Some (path_join tmp "site_logo.jpg") /\ b = Some (path_join tmp "site_bg.jpg") /\
  negb (is_empty (rstrip_slash url ++ "/" ++ "apps/theming/image/logoheader")) = true /\
  negb (is_empty (rstrip_slash url ++ "/" ++ "apps/theming/image/background")) = true.
Proof.
  rewrite !is_empty_app_slash. revert H.
  unfold fetch_body, io_bind, io_lift, io_ret, requests_get, write_file.
  rewrite !is_empty_app_slash. simpl.
  fetch_cases; intros H; inversion H; auto.
Qed.

Lemma fetch_body_fixed_paths_witness :
  fetch_body (site_env true) "https://cloud.example.org" "cloud.example.org" "tmp" empty_world
  = (Ok (Some "tmp/site_logo.jpg", Some "tmp/site_bg.jpg", "My Cloud"),
     snd (fetch_body (site_env true) "https://cloud.example.org" "cloud.example.org" "tmp"
            empty_world)) /\
  Some "tmp/site_logo.jpg" = Some (path_join "tmp" "site_logo.jpg").
Proof.
  split; [reflexivity|].
  refine (proj1 (fetch_body_fixed_paths (site_env true) "https://cloud.example.org"
            "cloud.example.org" "tmp" empty_world (Some "tmp/site_logo.jpg")
            (Some "tmp/site_bg.jpg") "My Cloud"
            (snd (fetch_body (site_env true) "https://cloud.example.org"
                    "cloud.example.org" "tmp" empty_world)) _)).
  reflexivity.
Defined.

(** C2 (as stated, refuted): in multi-user mode with two users the story
    ends with a page break after the last block, and holds two page
    breaks, not one. *)
Lemma generate_pdf_trailing_page_break_counterexample :
  exists doc,
    generate_pdf bare_penv (mkUserData [] (Some [alice; bob])) None "out.pdf"
      "cloud.example.org" [] true None None (Some "My Cloud") = Ok doc /\
    last (doc_story doc) im = PageBreak /\
    count_page_breaks (doc_story doc) = 2.
Proof. eexists. split; [reflexivity|]. split; vm_compute; reflexivity. Qed.

(** C2 (amended): when [generate_pdf] builds a document, in single-user
    mode its story is exactly the user's page block; in multi-user mode
    with N users it is the N users' blocks, in order, each free of page
    breaks and followed by one page break (the last one included). *)
Theorem generate_pdf_page_blocks penv ud qr out url lang logo bg sn :
  (forall doc, generate_pdf penv ud qr out url lang false logo bg sn = Ok doc ->
     exists ims, im_site_of penv logo = Ok ims /\
       user_block penv (ud_fields ud) qr url lang ims sn = Ok (doc_story doc)) /\
  (forall doc, generate_pdf penv ud qr out url lang true logo bg sn = Ok doc ->
     exists ims users blocks,
       im_site_of penv logo = Ok ims /\ ud_users ud = Some users /\
       length blocks = length users /\
       Forall2 (fun u b => user_block penv u (dict_get u "qr_code_path") url lang ims sn = Ok b
                           /\ count_page_breaks b = 0) users blocks /\
       doc_story doc = concat (map (fun b => b ++ [PageBreak]) blocks)%list).
Proof.
  split; intros doc H; apply generate_pdf_ok in H as [ims [Hims H]].
  - exists ims. split; [exact Hims|].
    rewrite build_single_user_section_app in H.
    apply res_map_ok in H as [b [Hb Heq]]. now rewrite Hb, <- Heq.
  - destruct H as [users [Hu H]].
    apply build_users_ok in H as [blocks [Hbs Heq]].
    exists ims, users, blocks. split; [exact Hims|]. split; [exact Hu|].
    split; [symmetry; eapply Forall2_length; eauto|].
    split; [|exact Heq].
    clear Heq Hu. induction Hbs as [|u b us bs Hb Hbs IH]; constructor; auto.
    split; [exact Hb|]. eapply user_block_no_break; eauto.
    eapply im_site_of_not_break; eauto.
Qed.

Lemma generate_pdf_page_blocks_witness :
  exists doc,
    generate_pdf bare_penv (mkUserData alice (Some [alice; bob])) None "out.pdf"
      "cloud.example.org" [] false None None (Some "My Cloud") = Ok doc /\
    exists ims, im_site_of bare_penv None = Ok ims /\
      user_block bare_penv alice None "cloud.example.org" [] ims (Some "My Cloud")
      = Ok (doc_story doc).
Proof.
  eexists. split; [reflexivity|].
  exact (proj1 (generate_pdf_page_blocks bare_penv (mkUserData alice (Some [alice; bob]))
           None "out.pdf" "cloud.example.org" [] None None (Some "My Cloud")) _ eq_refl).
Defined.

(** C3 (as stated, refuted): a logo path that does not exist on disk is
    not omitted: the bundled Nextcloud logo takes its place at the top of
    the page. *)
Lemma generate_pdf_missing_logo_counterexample :
  exists doc,
    generate_pdf bare_penv (mkUserData alice None) None "out.pdf" "cloud.example.org" []
      false (Some "tmp/site_logo.jpg") None (Some "My Cloud") = Ok doc /\
    hd PageBreak (doc_story doc) = Image "assets/Nextcloud_Logo.jpg" 150 106.
Proof. eexists. split; reflexivity. Qed.

(** C3 (amended): a QR path that is [None] or missing on disk is omitted:
    the section, and the single-user document, are those built without a
    QR path. A logo path that is [None] or missing is replaced by the
    bundled default logo: the document is the one built without a logo
    path. Each app-store badge whose file is missing is left out of the
    badge row, and without either badge no badge table is added. None of
    these cases adds an error: the only error of the badge block is the
    markup of its caption. *)
Theorem generate_pdf_missing_assets penv ud story u qr out url lang multi ims logo bg sn :
  (present (path_exists penv) qr = false ->
   build_single_user_section penv story u qr url lang ims sn
   = build_single_user_section penv story u None url lang ims sn /\
   generate_pdf penv ud qr out url lang false logo bg sn
   = generate_pdf penv ud None out url lang false logo bg sn) /\
  (present (path_exists penv) logo = false ->
   im_site_of penv logo = Ok im /\
   generate_pdf penv ud qr out url lang multi logo bg sn
   = generate_pdf penv ud qr out url lang multi None bg sn) /\
  (forall s, add_app_store_buttons penv story lang = Ok s ->
   forall p l w h, In (ClickableImage p l w h) (cells_of s) ->
   In (ClickableImage p l w h) (cells_of story) \/ path_exists penv p = true) /\
  (path_exists penv (path_join (module_dir penv) "../assets/google_play.jpg") = false ->
   path_exists penv (path_join (module_dir penv) "../assets/app_store.jpg") = false ->
   add_app_store_buttons penv story lang
   = res_map (fun p => story ++ [p; Spacer 1 14])%list
       (new_Paragraph penv (font14 (dict_get_default lang "output_handler_download_app"
          "Скачайте приложение Nextcloud Talk на своё мобильное устройство:")) "Normal")) /\
  (forall e, add_app_store_buttons penv story lang = Err e ->
   e = ValueError (font14 (dict_get_default lang "output_handler_download_app"
          "Скачайте приложение Nextcloud Talk на своё мобильное устройство:"))).
Proof.
  assert (Hqr : forall story u ims,
            present (path_exists penv) qr = false ->
            build_single_user_section penv story u qr url lang ims sn
            = build_single_user_section penv story u None url lang ims sn).
  { intros story' u' ims' H. unfold build_single_user_section.
    destruct qr as [q|]; [now rewrite H|reflexivity]. }
  split; [|split; [|split; [|split]]].
  - intros H. split; [now apply Hqr|].
    rewrite !generate_pdf_unfold. destruct (im_site_of penv logo); simpl; [|reflexivity].
    now rewrite Hqr.
  - intros H. split.
    + unfold im_site_of. destruct logo; [now rewrite H|reflexivity].
    + destruct logo as [l|]; [|reflexivity]. unfold generate_pdf. now rewrite H.
  - intros s Hs p l w h Hin.
    rewrite add_app_store_buttons_app in Hs.
    destruct (add_app_store_buttons penv [] lang) as [a|e] eqn:E; inversion Hs; subst.
    rewrite cells_of_app, in_app_iff in Hin.
    destruct Hin as [Hin|Hin]; [now left|right].
    unfold add_app_store_buttons, new_Paragraph, res_bind in E.
    destruct (paragraph_markup_ok _ _); [|discriminate].
    destruct (path_exists penv (path_join (module_dir penv) "../assets/google_play.jpg"))
      eqn:E1;
    destruct (path_exists penv (path_join (module_dir penv) "../assets/app_store.jpg"))
      eqn:E2;
    simpl in E; inversion E; subst; simpl in Hin;
    repeat (destruct Hin as [Hin|Hin]; [inversion Hin; subst; assumption|]);
    contradiction.
  - intros H1 H2. unfold add_app_store_buttons, res_bind. rewrite H1, H2. simpl.
    destruct (new_Paragraph _ _ _); simpl; [|reflexivity]. now rewrite <- app_assoc.
  - intros e. unfold add_app_store_buttons, new_Paragraph, res_bind.
    destruct (paragraph_markup_ok _ _); [|intros H; now inversion H].
    layout_cases; discriminate.
Qed.

(** C4: whenever the credentials block is built, the record has a
    username and a password, and they are the sole cells of the two
    boxed single-cell tables appended for the user, unchanged. *)
Theorem add_greeting_and_password_verbatim penv story u lang sn url s
  (H : add_greeting_and_password penv story u lang sn url = Ok s) :
  exists un pw blk,
    dict_get u "username" = Some un /\ dict_get u "password" = Some pw /\
    s = (story ++ blk)%list /\
    filter is_table blk
    = [Table [[CellText un]] [250%Z] (Some [24%Z]) None box_style;
       Table [[CellText pw]] [250%Z] (Some [24%Z]) None box_style].
Proof.
  revert H. unfold_layout.
  destruct (dict_get u "username") as [un|] eqn:Hu;
  destruct (dict_get u "password") as [pw|] eqn:Hp;
  layout_cases; intros H; inversion H; subst;
  exists un, pw; eexists; (split; [reflexivity|]); (split; [reflexivity|]);
  rewrite <- ?app_assoc; split; reflexivity.
Qed.

Lemma add_greeting_and_password_verbatim_witness :
  exists s,
    add_greeting_and_password bare_penv [] alice [] (Some "My Cloud") "cloud.example.org"
    = Ok s /\
    exists un pw blk,
      dict_get alice "username" = Some un /\ dict_get alice "password" = Some pw /\
      s = ([] ++ blk)%list /\
      filter is_table blk
      = [Table [[CellText un]] [250%Z] (Some [24%Z]) None box_style;
         Table [[CellText pw]] [250%Z] (Some [24%Z]) None box_style].
Proof.
  eexists. split; [reflexivity|].
  exact (add_greeting_and_password_verbatim bare_penv [] alice [] (Some "My Cloud")
           "cloud.example.org" _ eq_refl).
Defined.

(** C8: a user record without a username or a password makes
    [generate_pdf] raise, and nothing in the module catches it; when
    reportlab accepts every paragraph and image, the error is the
    [KeyError] of that field. *)
Theorem generate_pdf_missing_credentials_raise penv (ud : UserData) qr out url lang
  (multi : bool) logo bg sn
  (H : if multi
       then match ud_users ud with
            | Some users => existsb (fun u => negb (has_credentials u)) users = true
            | None => False
            end
       else has_credentials (ud_fields ud) = false) :
  (exists e, generate_pdf penv ud qr out url lang multi logo bg sn = Err e) /\
  ((forall t, paragraph_markup_ok penv t = true) ->
   (forall p, image_readable penv p = true) ->
   exists k, generate_pdf penv ud qr out url lang multi logo bg sn = Err (KeyError k) /\
             (k = "username" \/ k = "password")).
Proof.
  assert (Hstory : forall ims, exists e,
    (if multi
     then match ud_users ud with
          | Some us => build_users penv [] us url lang ims sn
          | None => Err (KeyError "users")
          end
     else build_single_user_section penv [] (ud_fields ud) qr url lang ims sn) = Err e /\
    ((forall t, paragraph_markup_ok penv t = true) ->
     (forall p, image_readable penv p = true) ->
     e = KeyError "username" \/ e = KeyError "password")).
  { intros ims. destruct multi.
    - destruct (ud_users ud) as [users|]; [|contradiction].
      destruct (build_users_missing penv [] users url lang ims sn H) as [e He].
      exists e. split; [exact He|]. intros Hp Hi. eapply build_users_err_accepting; eauto.
    - rewrite build_single_user_section_app.
      destruct (user_block penv (ud_fields ud) qr url lang ims sn) as [b|e] eqn:Eb.
      + apply user_block_ok_credentials in Eb. congruence.
      + exists e. split; [reflexivity|]. intros Hp Hi.
        eapply user_block_err_accepting; eauto. }
  rewrite generate_pdf_unfold. split.
  - destruct (im_site_of penv logo) as [ims|e]; simpl; [|eauto].
    destruct (Hstory ims) as [e [He _]]. rewrite He. simpl. eauto.
  - intros Hp Hi.
    assert (Hims : exists ims, im_site_of penv logo = Ok ims).
    { unfold im_site_of, new_Image. destruct logo; [destruct (present _ _)|];
        rewrite ?Hi; eauto. }
    destruct Hims as [ims Hims]. rewrite Hims. simpl.
    destruct (Hstory ims) as [e [He Hk]]. rewrite He. simpl.
    destruct (Hk Hp Hi) as [-> | ->]; eauto.
Qed.

Lemma generate_pdf_missing_credentials_raise_witness :
  exists k,
    generate_pdf bare_penv (mkUserData [] (Some [alice; [("username", "carol")]])) None
      "out.pdf" "cloud.example.org" [] true None None (Some "My Cloud")
    = Err (KeyError k) /\ (k = "username" \/ k = "password").
Proof.
  exact (proj2 (generate_pdf_missing_credentials_raise bare_penv
           (mkUserData [] (Some [alice; [("username", "carol")]])) None "out.pdf"
           "cloud.example.org" [] true None None (Some "My Cloud") eq_refl)
           (fun _ => eq_refl) (fun _ => eq_refl)).
Defined.

(** C10: in multi-user mode the top-level [qr_code_path] argument is
    ignored and each user's QR path is the record's own "qr_code_path"
    field ([None] when absent); in single-user mode the story is built with
    the top-level argument. *)
Theorem generate_pdf_qr_source penv ud q1 q2 out url lang logo bg sn :
  generate_pdf penv ud q1 out url lang true logo bg sn
  = generate_pdf penv ud q2 out url lang true logo bg sn /\
  (forall users doc, ud_users ud = Some users ->
     generate_pdf penv ud q1 out url lang true logo bg sn = Ok doc ->
     exists ims, im_site_of penv logo = Ok ims /\
                 build_users penv [] users url lang ims sn = Ok (doc_story doc)) /\
  (forall story u users ims, build_users penv story (u :: users) url lang ims sn
     = (s <- build_single_user_section penv story u (dict_get u "qr_code_path") url lang
               ims sn ;;
        build_users penv (s ++ [PageBreak])%list users url lang ims sn)%res) /\
  (forall doc, generate_pdf penv ud q1 out url lang false logo bg sn = Ok doc ->
     exists ims, im_site_of penv logo = Ok ims /\
       build_single_user_section penv [] (ud_fields ud) q1 url lang ims sn
       = Ok (doc_story doc)).
Proof.
  split; [|split; [|split]].
  - reflexivity.
  - intros users doc Hu H. apply generate_pdf_ok in H as [ims [Hims [us [Hus H]]]].
    rewrite Hu in Hus. inversion Hus; subst. eauto.
  - reflexivity.
  - intros doc H. now apply generate_pdf_ok in H.
Qed.

(** ** Further properties of the module *)

(** The greeting addresses the user by the stripped display name when it
    is not blank (whitespace as [str.strip] knows it, U+00A0 included),
    and by the username otherwise. *)
Theorem add_greeting_and_password_display_name penv story u lang sn url s
  (H : add_greeting_and_password penv story u lang sn url = Ok s) :
  let dn := py_strip (dict_get_default u "displayname" "") in
  exists un rest,
    dict_get u "username" = Some un /\
    s = (story ++ Paragraph (font14 (dict_get_default lang "output_handler_greeting"
                                      (missing "output_handler_greeting")
                                    ++ " " ++ (if is_empty dn then un else dn) ++ ","))
                  "Justify" :: rest)%list.
Proof.
  intros dn. revert H. unfold_layout. fold dn.
  destruct (dict_get u "username") as [un|] eqn:Hu;
  destruct (is_empty dn) eqn:Hdn; simpl;
  layout_cases; intros H; inversion H; subst;
  exists un; eexists; (split; [reflexivity|]); rewrite <- !app_assoc; reflexivity.
Qed.

(** A record whose display name is a no-break space and a space. *)
Definition nbsp_user : dict :=
  [("username", "bob"); ("password", "pw");
   ("displayname", String (byte 194) (String (byte 160) " "))].

Lemma add_greeting_and_password_display_name_witness :
  exists s,
    add_greeting_and_password bare_penv [] nbsp_user [] None "cloud.example.org" = Ok s /\
    exists un rest,
      dict_get nbsp_user "username" = Some un /\
      s = ([] ++ Paragraph (font14 (missing "output_handler_greeting" ++ " " ++ un ++ ","))
                 "Justify" :: rest)%list.
Proof.
  eexists. split; [reflexivity|].
  exact (add_greeting_and_password_display_name bare_penv [] nbsp_user [] None
           "cloud.example.org" _ eq_refl).
Defined.

(** A record with a blank display name and no username raises
    [KeyError('username')] before any paragraph is built. When reportlab
    accepts every paragraph, the username is read before the password: a
    record without a username raises [KeyError('username')] even when it
    has a display name, and one with a username but no password raises
    [KeyError('password')]. *)
Theorem add_greeting_and_password_key_order penv story u lang sn url :
  (dict_get u "username" = None ->
   is_empty (py_strip (dict_get_default u "displayname" "")) = true ->
   add_greeting_and_password penv story u lang sn url = Err (KeyError "username")) /\
  ((forall t, paragraph_markup_ok penv t = true) ->
   (dict_get u "username" = None ->
    add_greeting_and_password penv story u lang sn url = Err (KeyError "username")) /\
   (forall un, dict_get u "username" = Some un -> dict_get u "password" = None ->
    add_greeting_and_password penv story u lang sn url = Err (KeyError "password"))).
Proof.
  split; [|intros Hp; split].
  - intros Hu Hdn. unfold_layout. now rewrite Hdn, Hu.
  - intros Hu. unfold_layout. rewrite Hu.
    destruct (negb _); simpl; [|reflexivity]. now rewrite !Hp.
  - intros un Hu Hpw. unfold_layout. rewrite Hu, Hpw.
    destruct (negb _); simpl; now rewrite !Hp.
Qed.

Lemma add_greeting_and_password_key_order_witness :
  add_greeting_and_password bare_penv [] [("displayname", "Carol"); ("password", "pw")] []
    None "cloud.example.org" = Err (KeyError "username").
Proof.
  exact (proj1 (proj2 (add_greeting_and_password_key_order bare_penv []
           [("displayname", "Carol"); ("password", "pw")] [] None "cloud.example.org")
           (fun _ => eq_refl)) eq_refl).
Defined.

(** The badge table, when added, has one row holding one or two clickable
    140x45 badges, each for a file that exists, and one 150-point column
    per badge. *)
Theorem add_app_store_buttons_table penv story lang s rows cw rh ha st
  (H : add_app_store_buttons penv story lang = Ok s) :
  In (Table rows cw rh ha st) s ->
  In (Table rows cw rh ha st) story \/
  exists row, rows = [row] /\ cw = repeat 150%Z (length row) /\
              1 <= length row <= 2 /\
              Forall (fun c => exists p l, c = ClickableImage p l 140 45 /\
                                           path_exists penv p = true) row.
Proof.
  rewrite add_app_store_buttons_app in H.
  destruct (add_app_store_buttons penv [] lang) as [a|e] eqn:E; inversion H; subst.
  rewrite in_app_iff. intros [Hin|Hin]; [now left|right].
  unfold add_app_store_buttons, new_Paragraph, res_bind in E.
  destruct (paragraph_markup_ok _ _); [|discriminate].
  destruct (path_exists penv (path_join (module_dir penv) "../assets/google_play.jpg"))
    eqn:E1;
  destruct (path_exists penv (path_join (module_dir penv) "../assets/app_store.jpg"))
    eqn:E2;
  simpl in E; inversion E; subst; simpl in Hin;
  repeat (destruct Hin as [Hin|Hin]; [try discriminate Hin|]); try contradiction;
  inversion Hin; subst; eexists; (split; [reflexivity|]); (split; [reflexivity|]);
  simpl; (split; [auto|]); repeat constructor; eauto.
Qed.

(** A user's section opens with the site logo and an 8-point spacer, and
    holds the 150x150 QR image whenever a QR path is given and exists on
    disk. *)
Theorem build_single_user_section_layout penv story u qr url lang ims sn s
  (H : build_single_user_section penv story u qr url lang ims sn = Ok s) :
  (exists rest, s = (story ++ ims :: Spacer 1 8 :: rest)%list) /\
  (forall q, qr = Some q -> present (path_exists penv) qr = true -> In (Image q 150 150) s).
Proof.
  revert H. unfold build_single_user_section, res_bind.
  rewrite add_greeting_and_password_app.
  destruct (add_greeting_and_password penv [] u lang sn url) as [g|e]; simpl;
    [|discriminate].
  assert (HA : forall x, add_app_store_buttons penv x lang
                        = res_map (fun s => x ++ s)%list (add_app_store_buttons penv [] lang))
    by (intros; apply add_app_store_buttons_app).
  destruct (add_app_store_buttons penv [] lang) as [a|e]; simpl in HA.
  - destruct qr as [q|]; [destruct (present _ _) eqn:Hq|]; unfold new_Paragraph, new_Image;
      [destruct (paragraph_markup_ok _ _); [destruct (image_readable _ _) eqn:Hi|]| |];
      simpl; rewrite ?HA; intros H; inversion H; subst; clear H;
      (split; [eexists; rewrite <- !app_assoc; reflexivity|]);
      intros q' Hq' Hp; inversion Hq'; subst; try discriminate.
    rewrite !in_app_iff. simpl. tauto.
  - destruct qr as [q|]; [destruct (present _ _)|]; unfold new_Paragraph, new_Image;
      [destruct (paragraph_markup_ok _ _); [destruct (image_readable _ _)|]| |];
      simpl; rewrite ?HA; discriminate.
Qed.

Lemma build_single_user_section_layout_witness :
  exists s,
    build_single_user_section full_penv [] alice (Some "tmp/alice.jpg") "cloud.example.org"
      [] im None = Ok s /\
    In (Image "tmp/alice.jpg" 150 150) s.
Proof.
  eexists. split; [reflexivity|].
  exact (proj2 (build_single_user_section_layout full_penv [] alice (Some "tmp/alice.jpg")
           "cloud.example.org" [] im None _ eq_refl) "tmp/alice.jpg" eq_refl eq_refl).
Defined.

(** In multi-user mode a built document holds exactly one page break per
    user. *)
Theorem generate_pdf_multi_page_breaks penv ud users qr out url lang logo bg sn doc
  (Husers : ud_users ud = Some users)
  (Hdoc : generate_pdf penv ud qr out url lang true logo bg sn = Ok doc) :
  count_page_breaks (doc_story doc) = length users.
Proof.
  apply generate_pdf_ok in Hdoc as [ims [Hims [us [Hus H]]]].
  rewrite Husers in Hus. inversion Hus; subst us. clear Hus.
  apply build_users_ok in H as [blocks [Hbs Heq]]. rewrite Heq. simpl.
  clear Heq Husers. induction Hbs as [|u b us bs Hb Hbs IH]; [reflexivity|].
  simpl. rewrite !count_page_breaks_app, IH.
  rewrite (user_block_no_break penv u _ url lang ims sn b (im_site_of_not_break _ _ _ Hims) Hb).
  reflexivity.
Qed.

Lemma generate_pdf_multi_page_breaks_witness :
  exists doc,
    generate_pdf bare_penv (mkUserData [] (Some [alice; bob])) None "out.pdf"
      "cloud.example.org" [] true None None None = Ok doc /\
    count_page_breaks (doc_story doc) = 2.
Proof.
  eexists. split; [reflexivity|].
  exact (generate_pdf_multi_page_breaks bare_penv (mkUserData [] (Some [alice; bob]))
           [alice; bob] None "out.pdf" "cloud.example.org" [] None None None _
           eq_refl eq_refl).
Defined.

(** Multi-user mode with an empty user list: a built document has an
    empty story, the only possible errors are those of the logo image
    and of [doc.build], and when reportlab accepts every image and
    document a document is built. A [user_data] without a "users" entry
    raises [KeyError('users')] once the logo is loaded. *)
Theorem generate_pdf_multi_users_edge penv ud qr out url lang logo bg sn :
  (ud_users ud = Some [] ->
   (forall doc, generate_pdf penv ud qr out url lang true logo bg sn = Ok doc ->
                doc_story doc = []) /\
   (forall e, generate_pdf penv ud qr out url lang true logo bg sn = Err e ->
              (exists l, logo = Some l /\ e = OSError l) \/ e = LayoutError) /\
   ((forall p, image_readable penv p = true) -> (forall d, build_ok penv d = true) ->
    exists doc, generate_pdf penv ud qr out url lang true logo bg sn = Ok doc /\
                doc_story doc = [])) /\
  (ud_users ud = None ->
   generate_pdf penv ud qr out url lang true logo bg sn
   = (_ <- im_site_of penv logo ;; Err (KeyError "users"))%res).
Proof.
  rewrite generate_pdf_unfold.
  split; intros Hu; rewrite Hu; [|reflexivity].
  split; [|split].
  - intros doc. destruct (im_site_of penv logo); simpl; [|discriminate].
    destruct (build_ok _ _); intros H; inversion H; reflexivity.
  - intros e. destruct (im_site_of penv logo) as [ims|e'] eqn:Ei; simpl.
    + destruct (build_ok _ _); intros H; inversion H; auto.
    + intros H; inversion H; subst. left.
      unfold im_site_of, new_Image in Ei.
      destruct logo as [l|]; [destruct (present _ _); [destruct (image_readable _ _)|]|];
        inversion Ei; eauto.
  - intros Hi Hb.
    assert (Hims : exists ims, im_site_of penv logo = Ok ims).
    { unfold im_site_of, new_Image. destruct logo; [destruct (present _ _)|];
        rewrite ?Hi; eauto. }
    destruct Hims as [ims ->]. simpl. rewrite Hb. eauto.
Qed.

(** A display name whose greeting markup reportlab rejects makes the
    block raise [ValueError] before the username or the password is read. *)
Theorem add_greeting_and_password_markup_error penv story u lang sn url dn
  (Hdn : py_strip (dict_get_default u "displayname" "") = dn)
  (Hne : is_empty dn = false)
  (Hbad : paragraph_markup_ok penv
            (font14 (dict_get_default lang "output_handler_greeting"
                       (missing "output_handler_greeting") ++ " " ++ dn ++ ",")) = false) :
  add_greeting_and_password penv story u lang sn url
  = Err (ValueError (font14 (dict_get_default lang "output_handler_greeting"
                               (missing "output_handler_greeting") ++ " " ++ dn ++ ","))).
Proof. unfold_layout. rewrite Hdn, Hne. cbn [negb]. now rewrite Hbad. Qed.

Lemma add_greeting_and_password_markup_error_witness :
  add_greeting_and_password markup_penv [] [("displayname", "</font>")] [] None
    "cloud.example.org"
  = Err (ValueError (font14 (missing "output_handler_greeting" ++ " " ++ "</font>" ++ ","))).
Proof.
  exact (add_greeting_and_password_markup_error markup_penv [] [("displayname", "</font>")] []
           None "cloud.example.org" "</font>" eq_refl eq_refl eq_refl).
Defined.




(** A run of the fetch in which every request and write succeeds. *)
Lemma fetch_success_run env host tmp w page soup lg bgc :
  let url := normalize_url host in
  let logo_url := rstrip_slash url ++ "/" ++ "apps/theming/image/logoheader" in
  let bg_url := rstrip_slash url ++ "/" ++ "apps/theming/image/background" in
  http_get env url = Ok page -> bs4_parse env page = Ok soup ->
  http_get env logo_url = Ok lg -> http_get env bg_url = Ok bgc ->
  can_open env (path_join tmp "site_logo.jpg") = true ->
  can_open env (path_join tmp "site_bg.jpg") = true ->
  fetch_logo_and_site_name env host tmp w
  = (Ok (Some (path_join tmp "site_logo.jpg"), Some (path_join tmp "site_bg.jpg"),
         match select_footer_link_text env soup with
         | Some text => py_strip text
         | None => host
         end),
     mkWorld ((path_join tmp "site_bg.jpg", bgc) :: (path_join tmp "site_logo.jpg", lg)
              :: w_files w)
             (w_requests w ++ [url; logo_url; bg_url])%list).
Proof.
  intros url logo_url bg_url Hroot Hparse Hlogo Hbg Hwl Hwb.
  subst url logo_url bg_url. simpl in Hlogo, Hbg. unfold_fetch.
  rewrite Hroot; simpl. rewrite Hparse; simpl. rewrite Hlogo, Hwl; simpl.
  rewrite Hbg, Hwb. simpl. now rewrite <- !app_assoc.
Qed.

(** A successful fetch requests exactly three URLs, in this order: the
    root page, the logo header and the background. *)
Theorem fetch_success_requests env host tmp w page soup lg bgc
  (Hroot : http_get env (normalize_url host) = Ok page)
  (Hparse : bs4_parse env page = Ok soup)
  (Hlogo : http_get env (rstrip_slash (normalize_url host) ++ "/" ++
                         "apps/theming/image/logoheader") = Ok lg)
  (Hbg : http_get env (rstrip_slash (normalize_url host) ++ "/" ++
                       "apps/theming/image/background") = Ok bgc)
  (Hwl : can_open env (path_join tmp "site_logo.jpg") = true)
  (Hwb : can_open env (path_join tmp "site_bg.jpg") = true) :
  w_requests (snd (fetch_logo_and_site_name env host tmp w))
  = (w_requests w ++
     [normalize_url host;
      (rstrip_slash (normalize_url host) ++ "/apps/theming/image/logoheader")%string;
      (rstrip_slash (normalize_url host) ++ "/apps/theming/image/background")%string])%list.
Proof.
  now rewrite (fetch_success_run env host tmp w page soup lg bgc Hroot Hparse Hlogo Hbg
                 Hwl Hwb).
Qed.

Lemma fetch_success_requests_witness :
  w_requests (snd (fetch_logo_and_site_name (site_env true) "cloud.example.org/" "tmp"
                     empty_world))
  = ["https://cloud.example.org/";
     "https://cloud.example.org/apps/theming/image/logoheader";
     "https://cloud.example.org/apps/theming/image/background"].
Proof.
  exact (fetch_success_requests (site_env true) "cloud.example.org/" "tmp" empty_world
           "<html>https://cloud.example.org/</html>" tt
           "<html>https://cloud.example.org/apps/theming/image/logoheader</html>"
           "<html>https://cloud.example.org/apps/theming/image/background</html>"
           eq_refl eq_refl eq_refl eq_refl eq_refl eq_refl).
Defined.

(** A footer link whose text is blank (only whitespace code points, such
    as spaces or no-break spaces) yields an empty site name, not the host
    string: the fallback applies only when there is no link. *)
Theorem fetch_blank_footer_site_name env host tmp w page soup lg bgc t segs
  (Hroot : http_get env (normalize_url host) = Ok page)
  (Hparse : bs4_parse env page = Ok soup)
  (Hlogo : http_get env (rstrip_slash (normalize_url host) ++ "/" ++
                         "apps/theming/image/logoheader") = Ok lg)
  (Hbg : http_get env (rstrip_slash (normalize_url host) ++ "/" ++
                       "apps/theming/image/background") = Ok bgc)
  (Hwl : can_open env (path_join tmp "site_logo.jpg") = true)
  (Hwb : can_open env (path_join tmp "site_bg.jpg") = true)
  (Hlink : select_footer_link_text env soup = Some t)
  (Ht : list_ascii_of_string t = concat segs)
  (Hblank : forallb is_py_whitespace segs = true) :
  exists l b, fst (fetch_logo_and_site_name env host tmp w) = Ok (l, b, "").
Proof.
  rewrite (fetch_success_run env host tmp w page soup lg bgc Hroot Hparse Hlogo Hbg
             Hwl Hwb), Hlink. simpl. do 2 eexists.
  now rewrite (py_strip_blank t segs Ht Hblank).
Qed.

(** [site_env] with a footer link made of a no-break space and a space. *)
Definition blank_footer_env : Env :=
  {| http_get := fun u => Ok ("<html>" ++ u ++ "</html>");
     can_open := fun _ => true;
     Soup := unit;
     bs4_parse := fun _ => Ok tt;
     select_footer_link_text := fun _ => Some (String (byte 194) (String (byte 160) " "));
     qr_make_image := fun _ d => Ok ("QR:" ++ d) |}.

Lemma fetch_blank_footer_site_name_witness :
  exists l b,
    fst (fetch_logo_and_site_name blank_footer_env "cloud.example.org" "tmp" empty_world)
    = Ok (l, b, "").
Proof.
  exact (fetch_blank_footer_site_name blank_footer_env "cloud.example.org" "tmp" empty_world
           "<html>https://cloud.example.org</html>" tt
           "<html>https://cloud.example.org/apps/theming/image/logoheader</html>"
           "<html>https://cloud.example.org/apps/theming/image/background</html>"
           (String (byte 194) (String (byte 160) " ")) [[byte 194; byte 160]; [byte 32]]
           eq_refl eq_refl eq_refl eq_refl eq_refl eq_refl eq_refl eq_refl eq_refl).
Defined.

(** The fetch writes no file other than [tmp_dir/site_logo.jpg] and
    [tmp_dir/site_bg.jpg], whatever happens. *)
Theorem fetch_writes_only_branding_files env host tmp w p c :
  In (p, c) (w_files (snd (fetch_logo_and_site_name env host tmp w))) ->
  In (p, c) (w_files w) \/ p = path_join tmp "site_logo.jpg" \/
  p = path_join tmp "site_bg.jpg".
Proof.
  unfold_fetch. fetch_cases; simpl; intros H;
    repeat (destruct H as [H|H]; [inversion H; subst; auto|]); auto.
Qed.

(** Files written before an exception stay on disk: when the logo is
    fetched and written but the background request fails, the result is
    [(None, None, host)] while [site_logo.jpg] already holds the logo. *)
Theorem fetch_partial_write_kept env host tmp w page soup lg e
  (Hroot : http_get env (normalize_url host) = Ok page)
  (Hparse : bs4_parse env page = Ok soup)
  (Hlogo : http_get env (rstrip_slash (normalize_url host) ++ "/" ++
                         "apps/theming/image/logoheader") = Ok lg)
  (Hwl : can_open env (path_join tmp "site_logo.jpg") = true)
  (Hbg : http_get env (rstrip_slash (normalize_url host) ++ "/" ++
                       "apps/theming/image/background") = Err e) :
  fst (fetch_logo_and_site_name env host tmp w) = Ok (None, None, host) /\
  file_at (snd (fetch_logo_and_site_name env host tmp w)) (path_join tmp "site_logo.jpg")
  = Some lg.
Proof.
  simpl in Hlogo, Hbg. unfold_fetch.
  rewrite Hroot; simpl. rewrite Hparse; simpl. rewrite Hlogo, Hwl; simpl.
  rewrite Hbg. simpl. split; [reflexivity|]. apply file_at_write.
Qed.

(** A site whose background endpoint is unreachable. *)
Definition no_background_env : Env :=
  {| http_get := fun u => if String.prefix "https://cloud.example.org/apps/theming/image/background" u
                          then Err RequestException
                          else Ok ("<html>" ++ u ++ "</html>");
     can_open := fun _ => true;
     Soup := unit;
     bs4_parse := fun _ => Ok tt;
     select_footer_link_text := fun _ => Some " My Cloud ";
     qr_make_image := fun _ d => Ok ("QR:" ++ d) |}.

Lemma fetch_partial_write_kept_witness :
  fst (fetch_logo_and_site_name no_background_env "cloud.example.org" "tmp" empty_world)
  = Ok (None, None, "cloud.example.org") /\
  file_at (snd (fetch_logo_and_site_name no_background_env "cloud.example.org" "tmp"
                  empty_world)) "tmp/site_logo.jpg"
  = Some "<html>https://cloud.example.org/apps/theming/image/logoheader</html>".
Proof.
  exact (fetch_partial_write_kept no_background_env "cloud.example.org" "tmp" empty_world
           "<html>https://cloud.example.org</html>" tt
           "<html>https://cloud.example.org/apps/theming/image/logoheader</html>"
           RequestException eq_refl eq_refl eq_refl eq_refl eq_refl).
Defined.

(** [generate_qr_code] makes no HTTP request and writes no file other than
    the one at the path it returns. *)
Theorem generate_qr_code_footprint env data dir fn w p c :
  w_requests (snd (generate_qr_code env data dir fn w)) = w_requests w /\
  (In (p, c) (w_files (snd (generate_qr_code env data dir fn w))) ->
   In (p, c) (w_files w) \/ p = path_join dir (fn ++ ".jpg")).
Proof.
  unfold generate_qr_code, io_bind, io_lift, io_ret, write_file.
  destruct (qr_make_image env qr_params data) as [img|e]; simpl; [|auto].
  destruct (can_open env _); simpl; split; auto.
  intros [H|H]; [inversion H; auto|auto].
Qed.

(** A filename starting with "/" makes [generate_qr_code] ignore the
    output directory: the image is saved at [filename + ".jpg"]. *)
Theorem generate_qr_code_absolute_filename env data dir fn w p w'
  (Habs : String.prefix "/" fn = true)
  (H : generate_qr_code env data dir fn w = (Ok p, w')) :
  p = fn ++ ".jpg".
Proof.
  revert H. unfold generate_qr_code, io_bind, io_lift, io_ret, write_file, path_join.
  rewrite (prefix_app "/" fn ".jpg" Habs).
  destruct (qr_make_image env qr_params data); [|discriminate].
  destruct (can_open env _); intros H; inversion H; reflexivity.
Qed.

Lemma generate_qr_code_absolute_filename_witness :
  generate_qr_code (site_env true) "user:alice" "out" "/var/qr/alice" empty_world
  = (Ok "/var/qr/alice.jpg",
     snd (generate_qr_code (site_env true) "user:alice" "out" "/var/qr/alice" empty_world)) /\
  "/var/qr/alice.jpg" = "/var/qr/alice" ++ ".jpg".
Proof.
  split; [reflexivity|].
  exact (generate_qr_code_absolute_filename (site_env true) "user:alice" "out" "/var/qr/alice"
           empty_world "/var/qr/alice.jpg"
           (snd (generate_qr_code (site_env true) "user:alice" "out" "/var/qr/alice"
                   empty_world)) eq_refl eq_refl).
Defined.

Definition both_badges : list cell :=
  [ClickableImage "modules/../assets/google_play.jpg" google_play_url 140 45;
   ClickableImage "modules/../assets/app_store.jpg" app_store_url 140 45].

Lemma add_app_store_buttons_table_witness :
  exists s,
    add_app_store_buttons full_penv [] [] = Ok s /\
    In (Table [both_badges] [150%Z; 150%Z] None (Some "CENTER") []) s /\
    (In (Table [both_badges] [150%Z; 150%Z] None (Some "CENTER") []) [] \/
     exists row, [both_badges] = [row] /\ [150%Z; 150%Z] = repeat 150%Z (length row) /\
                 1 <= length row <= 2 /\
                 Forall (fun c => exists p l, c = ClickableImage p l 140 45 /\
                                              path_exists full_penv p = true) row).
Proof.
  eexists. split; [reflexivity|].
  assert (H : In (Table [both_badges] [150%Z; 150%Z] None (Some "CENTER") [])
                 [Paragraph (font14 "Скачайте приложение Nextcloud Talk на своё мобильное устройство:")
                    "Normal"; Spacer 1 14;
                  Table [both_badges] [150%Z; 150%Z] None (Some "CENTER") []; Spacer 1 24]).
  { right. right. left. reflexivity. }
  split; [exact H|].
  exact (add_app_store_buttons_table full_penv [] [] _ [both_badges] [150%Z; 150%Z] None
           (Some "CENTER") [] eq_refl H).
Defined.

Lemma fetch_writes_only_branding_files_witness :
  In ("tmp/site_logo.jpg", "<html>https://cloud.example.org/apps/theming/image/logoheader</html>")
     (w_files (snd (fetch_logo_and_site_name (site_env true) "cloud.example.org" "tmp"
                      empty_world))) /\
  (In ("tmp/site_logo.jpg", "<html>https://cloud.example.org/apps/theming/image/logoheader</html>")
      (w_files empty_world) \/
   "tmp/site_logo.jpg" = path_join "tmp" "site_logo.jpg" \/
   "tmp/site_logo.jpg" = path_join "tmp" "site_bg.jpg").
Proof.
  assert (H : In ("tmp/site_logo.jpg",
                  "<html>https://cloud.example.org/apps/theming/image/logoheader</html>")
                 (w_files (snd (fetch_logo_and_site_name (site_env true) "cloud.example.org"
                                  "tmp" empty_world)))).
  { vm_compute. right. left. reflexivity. }
  split; [exact H|].
  exact (fetch_writes_only_branding_files (site_env true) "cloud.example.org" "tmp"
           empty_world _ _ H).
Defined.

